(** * SMARTerFHIR: the client factory

    A shallow embedding of [src/Client/ClientFactory.ts] and the properties
    its specification states about it.

    The factory runs in a browser: it reads the page's URL and the build's
    environment variables, calls the [fhirclient] and [jwt-decode] packages
    and issues one [fetch].  Everything outside the file is gathered in a
    record [Env]; a JavaScript exception (or a rejected promise) is the
    [Throw] case of [Completion]; the asynchronous functions thread the list
    of requests they have sent. *)

From Stdlib Require Import Floats Ascii.
From stdpp Require Import gmap strings list pretty.

Set Warnings "-register-all".

Local Open Scope string_scope.

(** ** JavaScript values *)

(** What [JSON.parse] can return, and [undefined].  Objects are finite maps
    from property names to values. *)
Inductive JsValue :=
  | JsUndefined
  | JsNull
  | JsBoolean (b : bool)
  | JsNumber (x : float)
  | JsString (s : string)
  | JsArray (l : list JsValue)
  | JsObject (m : gmap string JsValue).

(** The exceptions the module throws or lets through. *)
Inductive JsError :=
  | Error (message : string)
  | InvalidTokenError (message : string)
  | TypeError (message : string)
  | SyntaxError (message : string).

(** A call either returns a value or throws. *)
Inductive Completion (A : Type) :=
  | Return (a : A)
  | Throw (e : JsError).
Arguments Return {A} a.
Arguments Throw {A} e.

Definition bindC {A B} (c : Completion A) (k : A → Completion B) : Completion B :=
  match c with
  | Return a => k a
  | Throw e => Throw e
  end.

(** [try { body } catch (reason) { handler }] *)
Definition try_catch {A} (body : Completion A) (handler : JsError → Completion A)
  : Completion A :=
  match body with
  | Return a => Return a
  | Throw reason => handler reason
  end.

Global Instance Completion_ret : MRet Completion := @Return.
Global Instance Completion_bind : MBind Completion := λ A B k c, bindC c k.

(** [ToBoolean]: what [!v] and [a && b] look at. *)
Definition truthy (v : JsValue) : bool :=
  match v with
  | JsUndefined | JsNull => false
  | JsBoolean b => b
  | JsNumber x => negb (PrimFloat.eqb x 0%float || PrimFloat.is_nan x)
  | JsString s => negb (String.eqb s "")
  | JsArray _ | JsObject _ => true
  end.

(** [v.key], for a key that no built-in prototype defines ([client_id],
    [access_token]): own properties of an object, [undefined] on any other
    value except [null] and [undefined], where the access throws. *)
Definition get_property (v : JsValue) (key : string) : Completion JsValue :=
  match v with
  | JsUndefined | JsNull =>
      Throw (TypeError ("Cannot read properties of null or undefined (reading '"
                          +:+ key +:+ "')"))
  | JsObject m => Return (default JsUndefined (m !! key))
  | _ => Return JsUndefined
  end.

(** [a && b] *)
Definition js_and (a b : JsValue) : JsValue := if truthy a then b else a.

(** [key in v]: objects only; on a primitive the operator throws.  Arrays
    own their indices and [length], which the factory never asks for. *)
Definition has_property (key : string) (v : JsValue) : Completion bool :=
  match v with
  | JsObject m => Return (bool_decide (is_Some (m !! key)))
  | JsArray l =>
      Return (bool_decide (key = "length") ||
              bool_decide (key ∈ (pretty <$> seq 0 (length l))))
  | _ => Throw (TypeError ("Cannot use 'in' operator to search for '"
                            +:+ key +:+ "' in a primitive"))
  end.

(** [{ ...v }]: the own enumerable properties of [v]. *)
Definition spread (v : JsValue) : gmap string JsValue :=
  match v with
  | JsObject m => m
  | JsArray l => list_to_map (imap (λ i x, (pretty i, x)) l)
  | JsString s =>
      list_to_map (imap (λ i c, (pretty i, JsString (String c EmptyString)))
                        (String.list_ascii_of_string s))
  | _ => ∅
  end.

(** ** Strings *)

(** Does [s] begin with [p]? *)
Fixpoint starts_with (s p : string) {struct p} : bool :=
  match p, s with
  | EmptyString, _ => true
  | String _ _, EmptyString => false
  | String c p', String d s' => Ascii.eqb c d && starts_with s' p'
  end.

(** [String.prototype.includes]: does [searchString] occur in [s]?  The
    patterns the factory searches for are ASCII, so a search over bytes and
    one over UTF-16 code units agree. *)
Fixpoint includes (s searchString : string) : bool :=
  starts_with s searchString ||
  match s with
  | EmptyString => false
  | String _ s' => includes s' searchString
  end.

(** [s.split(sep)] for a separator of one character. *)
Fixpoint split (sep : ascii) (s : string) : list string :=
  match s with
  | EmptyString => [EmptyString]
  | String c s' =>
      if Ascii.eqb c sep then EmptyString :: split sep s'
      else match split sep s' with
           | seg :: rest => String c seg :: rest
           | [] => [String c EmptyString]
           end
  end.

(** The declarative counterparts the theorems speak with. *)
Definition contains (s pat : string) : Prop :=
  ∃ pre post, s = pre +:+ pat +:+ post.

Fixpoint occurs (c : ascii) (s : string) : Prop :=
  match s with
  | EmptyString => False
  | String c' s' => c' = c ∨ occurs c s'
  end.

(** ** The library's types *)

(** [enum LAUNCH { EMR, STANDALONE, BACKEND }] *)
Module LAUNCH.
Inductive t := EMR | STANDALONE | BACKEND.
End LAUNCH.

(** Modelled from the spec: the enum [EMR] is declared in
    [Launcher/SmartLaunchHandler], which is not among the sources.  Its
    members are the four the factory names: Cerner, generic SMART Health IT,
    Epic, and none of them. *)
Module EMR.
Inductive t := CERNER | EPIC | SMART | NONE.
End EMR.

(** Modelled from the spec: [EMR_ENDPOINTS] is declared in
    [Client/BaseClient], which is not among the sources.  The factory reads
    its [token] and [r4] URLs, kept here as their text. *)
Record EMR_ENDPOINTS := {
  token : string;
  r4 : string;
}.

(** Modelled from the spec: [SubClient] is the FHIR client of [FhirClient],
    which is not among the sources.  The factory reads [state.serverUrl] and
    writes [state.clientId] and [state.tokenResponse]. *)
Record ClientState := {
  serverUrl : string;
  clientId : JsValue;
  tokenResponse : option (gmap string JsValue);
}.

Record SubClient := {
  state : ClientState;
}.

(** Modelled from the spec: [EpicClient] and [CernerClient], the vendor
    clients of [Client/EpicClient] and [Client/CernerClient], are not among
    the sources.  Each is built from the FHIR client it wraps. *)
Inductive BaseClient :=
  | EpicClient (fhirClientDefault : SubClient)
  | CernerClient (fhirClientDefault : SubClient).

(** [type JWT = { client_id: string, "epic.eci"?: string }]: at run time, an
    object. *)
Abbreviation JWT := (gmap string JsValue).

(** A request as [fetch(url, { mode, method, headers, body })] sends it; the
    body is the list of pairs given to [URLSearchParams]. *)
Record Request := {
  url : string;
  mode : string;
  method : string;
  headers : list (string * string);
  body : list (string * JsValue);
}.

(** A response, reduced to what [response.json()] resolves to. *)
Record Response := {
  json : Completion JsValue;
}.

(** ** The environment *)

(** What the factory reads from outside itself. *)
Record Env := {
  (** the pairs [new URLSearchParams(window.location.search)] holds *)
  location_search : list (string * string);
  (** [window.location.origin] *)
  location_origin : string;
  (** [process.env.REACT_APP_EMR_CLIENT_ID], [process.env.REACT_APP_EMR_TYPE] *)
  REACT_APP_EMR_CLIENT_ID : option string;
  REACT_APP_EMR_TYPE : option string;
  (** the network: what [fetch] resolves to, or the rejection *)
  fetch : Request → Completion Response;
  (** [FHIR.oauth2.ready()] and [FHIR.client(url)] of the fhirclient package,
      by what they resolve to *)
  FHIR_oauth2_ready : Completion SubClient;
  FHIR_client : string → Completion SubClient;
  (** [JSON.parse(base64_url_decode(segment))] inside jwt-decode: the value,
      or the message of the exception; [None] is a missing segment *)
  decode_segment : option string → string + JsValue;
  (** [instanceOfEmr] of [Launcher/SmartLaunchHandler]: the member of [EMR]
      a value is, if any *)
  instanceOfEmr : JsValue → option EMR.t;
  (** [EpicClient.getEndpoints()], [CernerClient.getEndpoints()] *)
  EpicClient_getEndpoints : EMR_ENDPOINTS;
  CernerClient_getEndpoints : EMR_ENDPOINTS;
}.

(** [process.env.NAME]: a string, or [undefined]. *)
Definition env_value (o : option string) : JsValue :=
  match o with
  | Some s => JsString s
  | None => JsUndefined
  end.

(** [URLSearchParams.prototype.get]: the value of the first pair named
    [name], or [null]. *)
Fixpoint URLSearchParams_get (params : list (string * string)) (name : string)
  : option string :=
  match params with
  | [] => None
  | (n, v) :: rest => if String.eqb n name then Some v else URLSearchParams_get rest name
  end.

(** ** Asynchronous functions *)

(** An [async] function, run to completion: from the requests sent so far to
    its outcome (a rejection is [Throw]) and the requests sent after it.  The
    requests are those of the module's own [fetch]; what the fhirclient
    package does on the network inside [FHIR.oauth2.ready()] is its own and
    is not recorded. *)
Definition Async (A : Type) : Type := list Request → Completion A * list Request.

Definition resolve {A} (c : Completion A) : Async A := λ sent, (c, sent).

(** [await m], then [k]. *)
Definition await {A B} (m : Async A) (k : A → Async B) : Async B :=
  λ sent,
    match m sent with
    | (Return a, sent') => k a sent'
    | (Throw e, sent') => (Throw e, sent')
    end.

(** [fetch(request)]: the request goes out, whatever comes back. *)
Definition send (env : Env) (request : Request) : Async Response :=
  λ sent, (fetch env request, (sent ++ [request])%list).

Global Instance Async_ret : MRet Async := λ A a, resolve (Return a).
Global Instance Async_bind : MBind Async := λ A B k m, await m k.

(** ** The module's functions *)

(** Modelled from the spec: [jwt_decode], the default export of the
    jwt-decode package, is not among the sources.  It decodes the token's
    payload, the second of its dot-separated segments, and verifies nothing;
    any failure is an [InvalidTokenError]. *)
Definition jwt_decode (env : Env) (token : string) : Completion JsValue :=
  match decode_segment env (split "." token !! 1%nat) with
  | inr payload => Return payload
  | inl message => Throw (InvalidTokenError ("Invalid token specified: " +:+ message))
  end.

Definition instanceOfJWT (object : JsValue) : Completion bool :=
  client_id ← get_property object "client_id";
  mret (match client_id with JsUndefined => false | _ => true end).

(** The factory has no fields. *)
Record ClientFactory : Set := new_ClientFactory {}.

Definition getEMRType (this : ClientFactory) (clientOrToken : SubClient + JWT)
  : EMR.t :=
  match clientOrToken with
  | inl client =>
      if includes (serverUrl (state client)) "cerner" then EMR.CERNER
      else if includes (serverUrl (state client)) "smarthealthit" then EMR.SMART
      else if includes (serverUrl (state client)) "epic" then EMR.EPIC
      else EMR.NONE
  | inr jwt =>
      if bool_decide (is_Some (jwt !! "epic.eci")) then EMR.EPIC
      else EMR.NONE
  end.

Definition getEmrTypeFromObject (this : ClientFactory) (env : Env) (object : JsValue)
  : Completion EMR.t :=
  isJwt ← instanceOfJWT object;
  if isJwt : bool then
    match object with
    | JsObject jwt => mret (getEMRType this (inr jwt))
    | _ =>
        isEpic ← has_property "epic.eci" object;
        mret (if isEpic : bool then EMR.EPIC else EMR.NONE)
    end
  else
    match instanceOfEmr env object with
    | Some emr => mret emr
    | None => Throw (Error "Invalid object type.")
    end.

Definition getEmrEndpoints (this : ClientFactory) (env : Env) (object : JsValue)
  : Completion EMR_ENDPOINTS :=
  emr ← getEmrTypeFromObject this env object;
  match emr with
  | EMR.EPIC => mret (EpicClient_getEndpoints env)
  | EMR.CERNER => mret (CernerClient_getEndpoints env)
  | EMR.SMART | EMR.NONE => Throw (Error "EMR type not defined.")
  end.

Definition codeToJwt (env : Env) (code : string) : Completion JsValue :=
  jwt_decode env code.

Definition getCodeFromBrowserUrl (env : Env) : Completion string :=
  let urlParams := location_search env in
  match URLSearchParams_get urlParams "code" with
  | None => Throw (Error "Could not find any JWT token.")
  | Some code => Return code
  end.

(** [{ endpoints, clientId }] *)
Record TokenParameters := {
  endpoints : EMR_ENDPOINTS;
  tp_clientId : JsValue;
}.

(** The body of the [try] in [getRequiredTokenParameters]. *)
Definition decodeTokenParameters (this : ClientFactory) (env : Env) (code : string)
  : Completion TokenParameters :=
  decodedJwt ← codeToJwt env code;
  endpoints ← getEmrEndpoints this env decodedJwt;
  client_id ← get_property decodedJwt "client_id";
  mret {| endpoints := endpoints; tp_clientId := client_id |}.

Definition getRequiredTokenParameters (this : ClientFactory) (env : Env) (code : string)
  : Completion TokenParameters :=
  try_catch
    (decodeTokenParameters this env code)
    (λ reason,
       let clientIdFromEnv := env_value (REACT_APP_EMR_CLIENT_ID env) in
       let emrType := env_value (REACT_APP_EMR_TYPE env) in
       let isRequiredParamsGiven := js_and emrType clientIdFromEnv in
       if negb (truthy isRequiredParamsGiven) then
         match reason with
         | InvalidTokenError _ =>
             Throw (InvalidTokenError "Cannot decode the Code for the EMR type. You must provide the client_id and emr_type explicitly")
         | _ => Throw reason
         end
       else if negb (truthy emrType) then
         Throw (Error "EMR type cannot be inferred. You must provide the emr_type explicitly")
       else
         endpoints ← getEmrEndpoints this env emrType;
         mret {| endpoints := endpoints; tp_clientId := clientIdFromEnv |}).

(** What the [catch] rethrows when the environment does not help. *)
Definition rethrown (reason : JsError) : JsError :=
  match reason with
  | InvalidTokenError _ =>
      InvalidTokenError "Cannot decode the Code for the EMR type. You must provide the client_id and emr_type explicitly"
  | _ => reason
  end.

(** An environment variable that is set, and not to the empty string. *)
Definition given (variable : option string) (value : string) : Prop :=
  variable = Some value ∧ value ≠ "".

Definition missing (variable : option string) : Prop :=
  variable = None ∨ variable = Some "".

(** The one request of the authorization-code exchange. *)
Definition token_request (env : Env) (tokenEndpoint code : string) (clientId : JsValue)
  : Request :=
  {| url := tokenEndpoint;
     mode := "cors";
     method := "POST";
     headers := [("accept", "application/x-www-form-urlencoded")];
     body := [("grant_type", JsString "authorization_code");
              ("code", JsString code);
              ("redirect_uri", JsString (location_origin env));
              ("client_id", clientId)] |}.

Definition getAccessToken (env : Env) (tokenEndpoint code : string) (clientId : JsValue)
  : Async JsValue :=
  response ← send env (token_request env tokenEndpoint code clientId);
  json ← resolve (json response);
  resolve (
    let tokenResponse := json in
    access_token ← get_property tokenResponse "access_token";
    if negb (truthy access_token)
    then Throw (Error "Could not find any access token from the oauth endpoint's response")
    else Return tokenResponse).

Definition buildStandaloneFhirClient (this : ClientFactory) (env : Env)
  : Async SubClient :=
  code ← resolve (getCodeFromBrowserUrl env);
  params ← resolve (getRequiredTokenParameters this env code);
  tokenResponse ← getAccessToken env (token (endpoints params)) code (tp_clientId params);
  defaultFhirClient ← resolve (FHIR_client env (r4 (endpoints params)));
  mret {| state := {| serverUrl := serverUrl (state defaultFhirClient);
                      clientId := tp_clientId params;
                      tokenResponse := Some (spread tokenResponse) |} |}.

Definition createDefaultFhirClient (this : ClientFactory) (env : Env)
    (launchType : LAUNCH.t) : Async SubClient :=
  match launchType with
  | LAUNCH.EMR => resolve (FHIR_oauth2_ready env)
  | LAUNCH.STANDALONE => buildStandaloneFhirClient this env
  | _ => resolve (Throw (Error "Unsupported provider for standalone launch"))
  end.

Definition createEMRClient (this : ClientFactory) (env : Env)
    (launchType : LAUNCH.t) : Async BaseClient :=
  defaultFhirClient ← createDefaultFhirClient this env launchType;
  let emrType := getEMRType this (inl defaultFhirClient) in
  match emrType with
  | EMR.EPIC => mret (EpicClient defaultFhirClient)
  | EMR.CERNER => mret (CernerClient defaultFhirClient)
  | EMR.SMART | EMR.NONE =>
      resolve (Throw (Error "Unsupported provider for EMR Client creation"))
  end.

(** ** Sample environments *)

Definition epic_endpoints : EMR_ENDPOINTS :=
  {| token := "https://fhir.epic.com/interconnect-fhir-oauth/oauth2/token";
     r4 := "https://fhir.epic.com/interconnect-fhir-oauth/api/FHIR/R4" |}.

Definition cerner_endpoints : EMR_ENDPOINTS :=
  {| token := "https://authorization.cerner.com/tenants/t/protocols/oauth2/profiles/smart-v1/token";
     r4 := "https://fhir-ehr.cerner.com/r4/t" |}.

(** The enum's members as the strings "cerner", "epic", "smart", "none". *)
Definition sample_instanceOfEmr (object : JsValue) : option EMR.t :=
  match object with
  | JsString s =>
      if String.eqb s "cerner" then Some EMR.CERNER
      else if String.eqb s "epic" then Some EMR.EPIC
      else if String.eqb s "smart" then Some EMR.SMART
      else if String.eqb s "none" then Some EMR.NONE
      else None
  | _ => None
  end.

Definition epic_jwt : JWT :=
  {[ "client_id" := JsString "my-app"; "epic.eci" := JsString "urn:epic:sandbox" ]}.

Definition plain_jwt : JWT :=
  {[ "client_id" := JsString "my-app" ]}.

(** A decoder that knows two payloads. *)
Definition sample_decode_segment (segment : option string) : string + JsValue :=
  match segment with
  | Some s =>
      if String.eqb s "EPICPAYLOAD" then inr (JsObject epic_jwt)
      else if String.eqb s "PLAINPAYLOAD" then inr (JsObject plain_jwt)
      else inl "Unexpected token in JSON"
  | None => inl "Cannot read properties of undefined (reading 'replace')"
  end.

Definition sample_client (serverUrl : string) : SubClient :=
  {| state := {| serverUrl := serverUrl; clientId := JsUndefined; tokenResponse := None |} |}.

Definition sample_token_response : JsValue :=
  JsObject {[ "access_token" := JsString "secret"; "token_type" := JsString "bearer" ]}.

(** A browser at [?code=...] (or whatever [search] holds), a build with the
    two variables [client_id] and [emr_type], a host whose client talks to
    [hostUrl], and a token endpoint that answers [answer]. *)
Definition sample_env (search : list (string * string)) (client_id emr_type : option string)
    (hostUrl : string) (answer : JsValue) : Env :=
  {| location_search := search;
     location_origin := "https://app.example.org";
     REACT_APP_EMR_CLIENT_ID := client_id;
     REACT_APP_EMR_TYPE := emr_type;
     fetch := λ _, Return {| json := Return answer |};
     FHIR_oauth2_ready := Return (sample_client hostUrl);
     FHIR_client := λ url, Return (sample_client url);
     decode_segment := sample_decode_segment;
     instanceOfEmr := sample_instanceOfEmr;
     EpicClient_getEndpoints := epic_endpoints;
     CernerClient_getEndpoints := cerner_endpoints |}.

(** A host that is the SMART Health IT launcher. *)
Definition smart_host_env : Env :=
  sample_env [] None None "https://launch.smarthealthit.org/v/r4/fhir" JsNull.

(** A build configured for SMART Health IT, and a code that is no JWT. *)
Definition smart_build_env : Env :=
  sample_env [("code", "not-a-jwt")] (Some "my-app") (Some "smart") "" sample_token_response.

(** A decoder for two payloads that are no tokens: the JSON string
    "cerner" and the empty object. *)
Definition odd_decode_segment (segment : option string) : string + JsValue :=
  match segment with
  | Some s =>
      if String.eqb s "ImNlcm5lciI" then inr (JsString "cerner")
      else if String.eqb s "e30" then inr (JsObject ∅)
      else inl "Unexpected token in JSON"
  | None => inl "Cannot read properties of undefined (reading 'replace')"
  end.

(** A build without the two variables, whose codes decode by
    [odd_decode_segment]. *)
Definition odd_payload_env : Env :=
  {| location_search := [("code", "h.ImNlcm5lciI.s")];
     location_origin := "https://app.example.org";
     REACT_APP_EMR_CLIENT_ID := None;
     REACT_APP_EMR_TYPE := None;
     fetch := λ _, Return {| json := Return sample_token_response |};
     FHIR_oauth2_ready := Return (sample_client "");
     FHIR_client := λ url, Return (sample_client url);
     decode_segment := odd_decode_segment;
     instanceOfEmr := sample_instanceOfEmr;
     EpicClient_getEndpoints := epic_endpoints;
     CernerClient_getEndpoints := cerner_endpoints |}.

(** ** Errors of the endpoints *)

(** The errors [getEmrEndpoints] can throw: its own two, and the
    [TypeError] of reading [client_id] off [null] or [undefined]. *)
Definition endpoint_error (e : JsError) : Prop :=
  e = Error "EMR type not defined."
  ∨ e = Error "Invalid object type."
  ∨ ∃ message, e = TypeError message.

(** ** Lemmas on strings *)

Lemma append_nil_l (s : string) : "" +:+ s = s.
Proof. reflexivity. Qed.

Lemma append_cons (c : ascii) (s t : string) :
  String c s +:+ t = String c (s +:+ t).
Proof. reflexivity. Qed.

Lemma starts_with_iff (s p : string) :
  starts_with s p = true ↔ ∃ post, s = p +:+ post.
Proof.
  revert s. induction p as [|c p IH]; intros s.
  - split; [intros _; by exists s | done].
  - destruct s as [|d s]; simpl.
    + split; [done | intros [post H]; discriminate H].
    + rewrite andb_true_iff, IH. split.
      * intros [Hcd [post ->]]. apply Ascii.eqb_eq in Hcd as ->. by exists post.
      * intros [post H]. rewrite append_cons in H. injection H as -> ->.
        split; [apply Ascii.eqb_refl | by exists post].
Qed.

Lemma includes_contains (s pat : string) :
  includes s pat = true ↔ contains s pat.
Proof.
  induction s as [|c s IH]; simpl.
  - rewrite orb_false_r, starts_with_iff. split.
    + intros [post H]. by exists "", post.
    + intros ([|d pre] & post & H); [by exists post | discriminate H].
  - rewrite orb_true_iff, starts_with_iff, IH. split.
    + intros [[post H] | (pre & post & H)].
      * by exists "", post.
      * exists (String c pre), post. by rewrite H.
    + intros ([|d pre] & post & H).
      * left. by exists post.
      * right. exists pre, post. rewrite append_cons in H. by injection H.
Qed.

Lemma includes_false_iff (s pat : string) :
  includes s pat = false ↔ ¬ contains s pat.
Proof.
  rewrite <- includes_contains. by destruct (includes s pat).
Qed.

Lemma split_nonempty (sep : ascii) (s : string) : split sep s ≠ [].
Proof.
  destruct s as [|c s]; simpl; [done |].
  destruct (Ascii.eqb c sep); [done |]. by destruct (split sep s).
Qed.

(** Splitting [h ++ sep ++ rest], where [h] has no separator, gives [h] and
    the segments of [rest]. *)
Lemma split_app_sep (sep : ascii) (h rest : string) :
  ¬ occurs sep h →
  split sep (h +:+ String sep rest) = h :: split sep rest.
Proof.
  induction h as [|c h IH]; intros Hno.
  - rewrite append_nil_l. simpl. by rewrite Ascii.eqb_refl.
  - rewrite append_cons. simpl in *.
    destruct (Ascii.eqb_spec c sep) as [->|Hne]; [tauto |].
    rewrite IH by tauto. done.
Qed.

Lemma split_no_sep (sep : ascii) (s : string) :
  ¬ occurs sep s → split sep s = [s].
Proof.
  induction s as [|c s IH]; simpl; intros Hno; [done |].
  destruct (Ascii.eqb_spec c sep) as [->|Hne]; [tauto |].
  rewrite IH by tauto. done.
Qed.

(** ** Vendor detection *)

Section getEMRType.
Variable this : ClientFactory.

Lemma getEMRType_client (client : SubClient) :
  getEMRType this (inl client) =
    if includes (serverUrl (state client)) "cerner" then EMR.CERNER
    else if includes (serverUrl (state client)) "smarthealthit" then EMR.SMART
    else if includes (serverUrl (state client)) "epic" then EMR.EPIC
    else EMR.NONE.
Proof. reflexivity. Qed.

Lemma getEMRType_jwt (jwt : JWT) :
  getEMRType this (inr jwt) =
    match jwt !! "epic.eci" with Some _ => EMR.EPIC | None => EMR.NONE end.
Proof.
  unfold getEMRType. destruct (jwt !! "epic.eci") eqn:E.
  - by rewrite bool_decide_eq_true_2.
  - rewrite bool_decide_eq_false_2; [done | by intros [? ?]].
Qed.
End getEMRType.

(** Decides an [includes] test in the goal by the substring it stands for. *)
Ltac case_includes :=
  match goal with
  | |- context [includes ?s ?pat] =>
      let H := fresh "Hinc" in
      destruct (includes s pat) eqn:H;
      [apply includes_contains in H | apply includes_false_iff in H]
  end.

(** C2: [getEMRType] decides the vendor by inspection alone.  On a client
    it looks at [state.serverUrl] and at nothing else, and answers CERNER
    exactly when the URL contains "cerner", otherwise SMART exactly when it
    contains "smarthealthit", otherwise EPIC exactly when it contains
    "epic", and NONE exactly when it contains none of the three.  On a token
    it answers EPIC exactly when the token has an "epic.eci" claim, and NONE
    exactly when it has none. *)
Theorem getEMRType_inspects (this : ClientFactory) (client : SubClient) (jwt : JWT) :
  let url := serverUrl (state client) in
  (∀ other : SubClient,
     serverUrl (state other) = url →
     getEMRType this (inl other) = getEMRType this (inl client))
  ∧ (getEMRType this (inl client) = EMR.CERNER ↔ contains url "cerner")
  ∧ (getEMRType this (inl client) = EMR.SMART ↔
       ¬ contains url "cerner" ∧ contains url "smarthealthit")
  ∧ (getEMRType this (inl client) = EMR.EPIC ↔
       ¬ contains url "cerner" ∧ ¬ contains url "smarthealthit" ∧ contains url "epic")
  ∧ (getEMRType this (inl client) = EMR.NONE ↔
       ¬ contains url "cerner" ∧ ¬ contains url "smarthealthit" ∧ ¬ contains url "epic")
  ∧ (getEMRType this (inr jwt) = EMR.EPIC ↔ is_Some (jwt !! "epic.eci"))
  ∧ (getEMRType this (inr jwt) = EMR.NONE ↔ jwt !! "epic.eci" = None).
Proof.
  intros url. split.
  { intros other Hurl. rewrite !getEMRType_client. fold url. by rewrite Hurl. }
  rewrite getEMRType_client, getEMRType_jwt. fold url.
  repeat case_includes; destruct (jwt !! "epic.eci") as [claim|] eqn:E;
    repeat split; try tauto; try done; try (intros; by eexists).
  all: by intros [? ?].
Qed.

(** C6: detection on a client follows the order cerner, smarthealthit,
    epic.  A server URL containing "cerner" gives CERNER whatever else it
    contains, and one containing "smarthealthit" but not "cerner" gives SMART
    whether or not it contains "epic". *)
Theorem getEMRType_precedence (this : ClientFactory) (client : SubClient) :
  let url := serverUrl (state client) in
  (contains url "cerner" → getEMRType this (inl client) = EMR.CERNER)
  ∧ (contains url "smarthealthit" → ¬ contains url "cerner" →
       getEMRType this (inl client) = EMR.SMART).
Proof.
  intros url. rewrite getEMRType_client. fold url.
  split; intros; repeat case_includes; tauto.
Qed.

(** ** Endpoints *)

Section endpoints.
Variables (this : ClientFactory) (env : Env).

Lemma instanceOfJWT_object (jwt : JWT) :
  instanceOfJWT (JsObject jwt) =
    Return (match jwt !! "client_id" with
            | None | Some JsUndefined => false
            | Some _ => true
            end).
Proof.
  unfold instanceOfJWT. simpl. by destruct (jwt !! "client_id") as [[]|].
Qed.

(** Only an object passes for a token. *)
Lemma instanceOfJWT_true (object : JsValue) :
  instanceOfJWT object = Return true →
  ∃ (jwt : JWT) claim,
    object = JsObject jwt ∧ jwt !! "client_id" = Some claim ∧ claim ≠ JsUndefined.
Proof.
  destruct object as [| | | | | |jwt]; try discriminate.
  rewrite instanceOfJWT_object.
  destruct (jwt !! "client_id") as [claim|] eqn:E; [|discriminate].
  intros H. exists jwt, claim. repeat split; [done |].
  intros ->. discriminate H.
Qed.

Lemma getEmrTypeFromObject_jwt (jwt : JWT) :
  instanceOfJWT (JsObject jwt) = Return true →
  getEmrTypeFromObject this env (JsObject jwt) = Return (getEMRType this (inr jwt)).
Proof. unfold getEmrTypeFromObject. by intros ->. Qed.

Lemma getEmrTypeFromObject_string (s : string) :
  getEmrTypeFromObject this env (JsString s) =
    match instanceOfEmr env (JsString s) with
    | Some emr => Return emr
    | None => Throw (Error "Invalid object type.")
    end.
Proof. reflexivity. Qed.

Lemma getEmrEndpoints_jwt (jwt : JWT) :
  instanceOfJWT (JsObject jwt) = Return true →
  getEmrEndpoints this env (JsObject jwt) =
    match jwt !! "epic.eci" with
    | Some _ => Return (EpicClient_getEndpoints env)
    | None => Throw (Error "EMR type not defined.")
    end.
Proof.
  intros H. unfold getEmrEndpoints.
  rewrite (getEmrTypeFromObject_jwt _ H), getEMRType_jwt.
  by destruct (jwt !! "epic.eci").
Qed.

Lemma getEmrEndpoints_string (s : string) :
  getEmrEndpoints this env (JsString s) =
    match instanceOfEmr env (JsString s) with
    | Some EMR.EPIC => Return (EpicClient_getEndpoints env)
    | Some EMR.CERNER => Return (CernerClient_getEndpoints env)
    | Some EMR.SMART | Some EMR.NONE => Throw (Error "EMR type not defined.")
    | None => Throw (Error "Invalid object type.")
    end.
Proof.
  unfold getEmrEndpoints. rewrite getEmrTypeFromObject_string.
  by destruct (instanceOfEmr env (JsString s)) as [[]|].
Qed.
End endpoints.

(** C5: a token only ever identifies Epic.  For every JWT (an object with
    a [client_id]), [getEMRType] answers EPIC or NONE, never CERNER or SMART;
    so [getEmrEndpoints] on it returns Epic's endpoints or throws "EMR type
    not defined.", and when the standalone flow takes its parameters from a
    decoded code that is such a JWT, without falling back to the environment
    variables, the endpoints are Epic's. *)
Theorem jwt_identifies_epic_only (this : ClientFactory) (env : Env) (jwt : JWT)
    (Hjwt : instanceOfJWT (JsObject jwt) = Return true) :
  (getEMRType this (inr jwt) = EMR.EPIC ∨ getEMRType this (inr jwt) = EMR.NONE)
  ∧ getEMRType this (inr jwt) ≠ EMR.CERNER
  ∧ getEMRType this (inr jwt) ≠ EMR.SMART
  ∧ (getEmrEndpoints this env (JsObject jwt) = Return (EpicClient_getEndpoints env)
     ∨ getEmrEndpoints this env (JsObject jwt) = Throw (Error "EMR type not defined."))
  ∧ (∀ code params,
       codeToJwt env code = Return (JsObject jwt) →
       decodeTokenParameters this env code = Return params →
       endpoints params = EpicClient_getEndpoints env).
Proof.
  rewrite getEMRType_jwt. repeat split.
  - destruct (jwt !! "epic.eci"); auto.
  - by destruct (jwt !! "epic.eci").
  - by destruct (jwt !! "epic.eci").
  - rewrite (getEmrEndpoints_jwt _ _ _ Hjwt). destruct (jwt !! "epic.eci"); auto.
  - intros code params Hcode. unfold decodeTokenParameters. rewrite Hcode. simpl.
    rewrite (getEmrEndpoints_jwt _ _ _ Hjwt).
    destruct (jwt !! "epic.eci"); [|discriminate].
    simpl. by intros [= <-].
Qed.

Lemma jwt_identifies_epic_only_witness :
  instanceOfJWT (JsObject epic_jwt) = Return true
  ∧ getEmrEndpoints new_ClientFactory
      (sample_env [] None None "" JsNull) (JsObject epic_jwt) = Return epic_endpoints
  ∧ (getEmrEndpoints new_ClientFactory
       (sample_env [] None None "" JsNull) (JsObject epic_jwt) = Return epic_endpoints
     ∨ getEmrEndpoints new_ClientFactory
         (sample_env [] None None "" JsNull) (JsObject epic_jwt)
       = Throw (Error "EMR type not defined.")).
Proof.
  split; [reflexivity |]. split; [reflexivity |].
  apply (jwt_identifies_epic_only new_ClientFactory
           (sample_env [] None None "" JsNull) epic_jwt).
  reflexivity.
Defined.

(** C5 as it is stated fails: a code need not decode to a JWT.  Here the
    payload is the JSON string "cerner"; it is taken for the enum member, and
    the flow gets Cerner's endpoints from the decoded code, with no fallback.
    The empty object is neither a JWT nor a member: "Invalid object type.". *)
Lemma decoded_string_gives_cerner :
  codeToJwt odd_payload_env "h.ImNlcm5lciI.s" = Return (JsString "cerner")
  ∧ getEmrEndpoints new_ClientFactory odd_payload_env (JsString "cerner") =
      Return cerner_endpoints
  ∧ decodeTokenParameters new_ClientFactory odd_payload_env "h.ImNlcm5lciI.s" =
      Return {| endpoints := cerner_endpoints; tp_clientId := JsUndefined |}
  ∧ getRequiredTokenParameters new_ClientFactory odd_payload_env "h.ImNlcm5lciI.s" =
      Return {| endpoints := cerner_endpoints; tp_clientId := JsUndefined |}
  ∧ cerner_endpoints ≠ EpicClient_getEndpoints odd_payload_env
  ∧ codeToJwt odd_payload_env "h.e30.s" = Return (JsObject ∅)
  ∧ getEmrEndpoints new_ClientFactory odd_payload_env (JsObject ∅) =
      Throw (Error "Invalid object type.").
Proof.
  split_and!; try reflexivity. discriminate.
Qed.

(** ** The token exchange *)

Ltac unfold_async :=
  unfold mbind, mret, Async_bind, Async_ret, await, resolve, send in *.

Section getAccessToken.
Variables (env : Env) (tokenEndpoint code : string) (clientId : JsValue).
Variable sent : list Request.

Let request := token_request env tokenEndpoint code clientId.
Let result := getAccessToken env tokenEndpoint code clientId sent.

Lemma getAccessToken_requests : result.2 = (sent ++ [request])%list.
Proof.
  subst result. unfold getAccessToken. unfold_async. fold request.
  destruct (fetch env request) as [response|e]; [|done].
  by destruct (json response).
Qed.

Lemma getAccessToken_fetch_rejected (e : JsError) :
  fetch env request = Throw e → result.1 = Throw e.
Proof.
  subst result. unfold getAccessToken. unfold_async. fold request. by intros ->.
Qed.

Lemma getAccessToken_json_rejected (response : Response) (e : JsError) :
  fetch env request = Return response → json response = Throw e →
  result.1 = Throw e.
Proof.
  subst result. unfold getAccessToken. unfold_async. fold request.
  by intros -> ->.
Qed.

Lemma getAccessToken_answer (response : Response) (tokenResponse access_token : JsValue) :
  fetch env request = Return response →
  json response = Return tokenResponse →
  get_property tokenResponse "access_token" = Return access_token →
  result.1 =
    if truthy access_token then Return tokenResponse
    else Throw (Error "Could not find any access token from the oauth endpoint's response").
Proof.
  subst result. unfold getAccessToken. unfold_async. fold request.
  intros -> ->. simpl. unfold Completion_bind, bindC. intros ->.
  by destruct (truthy access_token).
Qed.
End getAccessToken.



(** The requests already sent do not change what [getAccessToken] does. *)
Lemma getAccessToken_sent (env : Env) (tokenEndpoint code : string)
    (clientId : JsValue) (sent : list Request) :
  getAccessToken env tokenEndpoint code clientId sent =
    ((getAccessToken env tokenEndpoint code clientId []).1,
     (sent ++ (getAccessToken env tokenEndpoint code clientId []).2)%list).
Proof.
  unfold getAccessToken. unfold_async.
  destruct (fetch env _) as [response|e]; [|done].
  by destruct (json response).
Qed.

(** ** The code in the browser's URL *)

Lemma URLSearchParams_get_None (params : list (string * string)) (name : string) :
  URLSearchParams_get params name = None ↔ ∀ v, (name, v) ∉ params.
Proof.
  induction params as [|[n v] rest IH]; simpl.
  - split; [intros _ v; apply not_elem_of_nil | done].
  - destruct (String.eqb_spec n name) as [->|Hne].
    + split; [done |]. intros H. destruct (H v). apply list_elem_of_here.
    + rewrite IH. split.
      * intros H v' [[=]|Hin]%elem_of_cons; [congruence | by apply (H v')].
      * intros H v' Hin. apply (H v'). by apply list_elem_of_further.
Qed.

Lemma URLSearchParams_get_Some (params : list (string * string)) (name value : string) :
  URLSearchParams_get params name = Some value ↔
  ∃ pre post, params = (pre ++ (name, value) :: post)%list ∧ ∀ v, (name, v) ∉ pre.
Proof.
  induction params as [|[n v] rest IH]; simpl.
  - split; [done |]. intros (pre & post & H & _). by destruct pre.
  - destruct (String.eqb_spec n name) as [->|Hne].
    + split.
      * intros [= ->]. exists [], rest. split; [done |]. intros ?. apply not_elem_of_nil.
      * intros ([|x pre] & post & H & Hpre).
        -- by injection H as ->.
        -- injection H as <- _. destruct (Hpre v). apply list_elem_of_here.
    + rewrite IH. split.
      * intros (pre & post & -> & Hpre). exists ((n, v) :: pre), post.
        split; [done |].
        intros v' [[=]|Hin]%elem_of_cons; [congruence | by apply (Hpre v')].
      * intros ([|x pre] & post & H & Hpre).
        -- injection H as -> _. done.
        -- injection H as <- ->. exists pre, post. split; [done |].
           intros v' Hin. apply (Hpre v'). by apply list_elem_of_further.
Qed.

(** C8: [getCodeFromBrowserUrl] throws "Could not find any JWT token."
    exactly when the query string has no "code" parameter, and otherwise
    returns the value of the (first) "code" parameter as it is; so a
    standalone launch without a code fails with that error before anything
    is sent. *)
Theorem getCodeFromBrowserUrl_code (env : Env) :
  (getCodeFromBrowserUrl env = Throw (Error "Could not find any JWT token.") ↔
     ∀ v, ("code", v) ∉ location_search env)
  ∧ (∀ code,
       getCodeFromBrowserUrl env = Return code ↔
       ∃ pre post,
         location_search env = (pre ++ ("code", code) :: post)%list
         ∧ ∀ v, ("code", v) ∉ pre)
  ∧ ((∀ v, ("code", v) ∉ location_search env) →
     ∀ this sent,
       createEMRClient this env LAUNCH.STANDALONE sent =
         (Throw (Error "Could not find any JWT token."), sent)).
Proof.
  unfold getCodeFromBrowserUrl. repeat split.
  - destruct (URLSearchParams_get _ _) eqn:E; [done |].
    intros _. by apply URLSearchParams_get_None.
  - intros H%URLSearchParams_get_None. by rewrite H.
  - destruct (URLSearchParams_get _ _) eqn:E; [|done].
    intros [= ->]. by apply URLSearchParams_get_Some.
  - intros H%URLSearchParams_get_Some. by rewrite H.
  - intros H%URLSearchParams_get_None this sent.
    unfold createEMRClient, createDefaultFhirClient, buildStandaloneFhirClient,
      getCodeFromBrowserUrl.
    unfold_async. by rewrite H.
Qed.

(** ** Decoding the code *)

(** Of a token [header.payload.signature], only the payload is decoded. *)
Lemma jwt_decode_payload (env : Env) (header payload signature : string) :
  ¬ occurs "." header → ¬ occurs "." payload →
  jwt_decode env (header +:+ "." +:+ payload +:+ "." +:+ signature) =
    match decode_segment env (Some payload) with
    | inr value => Return value
    | inl message => Throw (InvalidTokenError ("Invalid token specified: " +:+ message))
    end.
Proof.
  intros Hheader Hpayload. unfold jwt_decode.
  change ("." +:+ payload +:+ "." +:+ signature)
    with (String "." (payload +:+ String "." signature)).
  by rewrite !split_app_sep.
Qed.

(** A code that cannot be decoded fails with an [InvalidTokenError]. *)
Lemma codeToJwt_throws (env : Env) (code : string) (reason : JsError) :
  codeToJwt env code = Throw reason → ∃ message, reason = InvalidTokenError message.
Proof.
  unfold codeToJwt, jwt_decode. destruct (decode_segment env _); [|done].
  intros [= <-]. by eexists.
Qed.

(** C9: the token is decoded, never verified.  Two codes with the same
    payload decode to the same JWT whatever their headers and signatures
    are, and so give the same vendor, the same endpoints and the same token
    parameters. *)
Theorem codeToJwt_ignores_signature (this : ClientFactory) (env : Env)
    (header1 header2 payload signature1 signature2 : string) :
  ¬ occurs "." header1 → ¬ occurs "." header2 → ¬ occurs "." payload →
  let code1 := header1 +:+ "." +:+ payload +:+ "." +:+ signature1 in
  let code2 := header2 +:+ "." +:+ payload +:+ "." +:+ signature2 in
  codeToJwt env code1 = codeToJwt env code2
  ∧ (codeToJwt env code1 ≫= getEmrTypeFromObject this env) =
    (codeToJwt env code2 ≫= getEmrTypeFromObject this env)
  ∧ (codeToJwt env code1 ≫= getEmrEndpoints this env) =
    (codeToJwt env code2 ≫= getEmrEndpoints this env)
  ∧ getRequiredTokenParameters this env code1 = getRequiredTokenParameters this env code2.
Proof.
  intros H1 H2 Hp code1 code2.
  assert (codeToJwt env code1 = codeToJwt env code2) as Heq.
  { unfold codeToJwt, code1, code2. by rewrite !jwt_decode_payload. }
  unfold getRequiredTokenParameters, decodeTokenParameters.
  by rewrite Heq.
Qed.

Lemma codeToJwt_ignores_signature_witness :
  codeToJwt (sample_env [] None None "" JsNull) "HEADER.EPICPAYLOAD.good-signature" =
  codeToJwt (sample_env [] None None "" JsNull) "OTHER.EPICPAYLOAD.".
Proof.
  apply (codeToJwt_ignores_signature new_ClientFactory (sample_env [] None None "" JsNull)
           "HEADER" "OTHER" "EPICPAYLOAD" "good-signature" "");
    simpl; intuition discriminate.
Defined.

(** ** Token parameters *)

Lemma given_truthy (variable : option string) (value : string) :
  given variable value → truthy (env_value variable) = true.
Proof. intros [-> Hne]. simpl. by destruct (String.eqb_spec value ""). Qed.

Lemma missing_truthy (variable : option string) :
  missing variable → truthy (env_value variable) = false.
Proof. by intros [-> | ->]. Qed.

(** The fallback of [getRequiredTokenParameters], whatever made the [try] fail. *)
Lemma getRequiredTokenParameters_catch (this : ClientFactory) (env : Env)
    (code : string) (reason : JsError) :
  decodeTokenParameters this env code = Throw reason →
  (∀ emrType clientId,
     given (REACT_APP_EMR_TYPE env) emrType →
     given (REACT_APP_EMR_CLIENT_ID env) clientId →
     getRequiredTokenParameters this env code =
       endpoints ← getEmrEndpoints this env (JsString emrType);
       mret {| endpoints := endpoints; tp_clientId := JsString clientId |})
  ∧ (missing (REACT_APP_EMR_TYPE env) ∨ missing (REACT_APP_EMR_CLIENT_ID env) →
     getRequiredTokenParameters this env code = Throw (rethrown reason)).
Proof.
  intros Hbody. unfold getRequiredTokenParameters. rewrite Hbody. simpl. split.
  - intros emrType clientId HemrType HclientId. unfold js_and.
    rewrite (given_truthy _ _ HemrType), (given_truthy _ _ HclientId). simpl.
    by destruct HemrType as [-> _], HclientId as [-> _].
  - intros Hmissing. unfold js_and.
    destruct (truthy (env_value (REACT_APP_EMR_TYPE env))) eqn:HemrType.
    + destruct Hmissing as [H|H]; apply missing_truthy in H; [congruence |].
      rewrite H. simpl. by destruct reason.
    + rewrite HemrType. simpl. by destruct reason.
Qed.

(** *** The steps of the standalone flow *)

Section standalone.
Variables (this : ClientFactory) (env : Env) (sent : list Request).

Lemma buildStandaloneFhirClient_no_code (e : JsError) :
  getCodeFromBrowserUrl env = Throw e →
  buildStandaloneFhirClient this env sent = (Throw e, sent).
Proof. unfold buildStandaloneFhirClient. unfold_async. by intros ->. Qed.

Lemma buildStandaloneFhirClient_no_parameters (code : string) (e : JsError) :
  getCodeFromBrowserUrl env = Return code →
  getRequiredTokenParameters this env code = Throw e →
  buildStandaloneFhirClient this env sent = (Throw e, sent).
Proof. unfold buildStandaloneFhirClient. unfold_async. by intros -> ->. Qed.

(** With the code and the parameters at hand, the flow is the exchange
    followed by [FHIR.client]. *)
Lemma buildStandaloneFhirClient_exchange (code : string) (parameters : TokenParameters) :
  getCodeFromBrowserUrl env = Return code →
  getRequiredTokenParameters this env code = Return parameters →
  buildStandaloneFhirClient this env sent =
    (match (getAccessToken env (token (endpoints parameters)) code
              (tp_clientId parameters) sent).1 with
     | Return tokenResponse =>
         match FHIR_client env (r4 (endpoints parameters)) with
         | Return defaultFhirClient =>
             Return {| state := {| serverUrl := serverUrl (state defaultFhirClient);
                                   clientId := tp_clientId parameters;
                                   tokenResponse := Some (spread tokenResponse) |} |}
         | Throw e => Throw e
         end
     | Throw e => Throw e
     end,
     (sent ++ [token_request env (token (endpoints parameters)) code
                 (tp_clientId parameters)])%list).
Proof.
  intros Hcode Hparameters.
  pose proof (getAccessToken_requests env (token (endpoints parameters)) code
                (tp_clientId parameters) sent) as Hsent.
  unfold buildStandaloneFhirClient. unfold_async. rewrite Hcode, Hparameters.
  destruct (getAccessToken _ _ _ _ sent) as [[tokenResponse|e] sent'];
    simpl in Hsent; subst sent'; [|done].
  by destruct (FHIR_client env _).
Qed.

(** The flow stops at the code, at the parameters, or goes on to the
    exchange. *)
Lemma buildStandaloneFhirClient_cases :
  (∃ e, getCodeFromBrowserUrl env = Throw e
        ∧ buildStandaloneFhirClient this env sent = (Throw e, sent))
  ∨ (∃ code e,
       getCodeFromBrowserUrl env = Return code
       ∧ getRequiredTokenParameters this env code = Throw e
       ∧ buildStandaloneFhirClient this env sent = (Throw e, sent))
  ∨ (∃ code parameters,
       getCodeFromBrowserUrl env = Return code
       ∧ getRequiredTokenParameters this env code = Return parameters).
Proof.
  destruct (getCodeFromBrowserUrl env) as [code|e] eqn:Hcode.
  - destruct (getRequiredTokenParameters this env code) as [parameters|e] eqn:Hparameters.
    + right. right. by exists code, parameters.
    + right. left. exists code, e. split_and!; [done | done |].
      by apply buildStandaloneFhirClient_no_parameters with code.
  - left. exists e. split; [done |]. by apply buildStandaloneFhirClient_no_code.
Qed.
End standalone.

(** C3: the one recovery of the standalone flow is the [try]/[catch]
    of [getRequiredTokenParameters].  When the code cannot be decoded as a
    JWT, the function turns to the environment variables REACT_APP_EMR_TYPE
    and REACT_APP_EMR_CLIENT_ID.  With both given, it answers as
    [getEmrEndpoints] does on that EMR type: Epic's or Cerner's endpoints,
    with the client id of the environment, when the type is EPIC or CERNER;
    the error "EMR type not defined." when it is SMART or NONE; "Invalid
    object type." when it is no member of [EMR].  With either missing or
    empty, it throws the [InvalidTokenError] that asks for the client_id and
    emr_type.  Nothing else in the flow is caught: a missing code, parameters
    that could not be had, a failed exchange and a failing [FHIR.client] each
    come out of [buildStandaloneFhirClient], and of [createEMRClient], as
    they are. *)
Theorem getRequiredTokenParameters_fallback (this : ClientFactory) (env : Env)
    (code : string) (reason : JsError)
    (Hdecode : codeToJwt env code = Throw reason) :
  (∀ emrType clientId,
     given (REACT_APP_EMR_TYPE env) emrType →
     given (REACT_APP_EMR_CLIENT_ID env) clientId →
     getRequiredTokenParameters this env code =
       match instanceOfEmr env (JsString emrType) with
       | Some EMR.EPIC =>
           Return {| endpoints := EpicClient_getEndpoints env;
                     tp_clientId := JsString clientId |}
       | Some EMR.CERNER =>
           Return {| endpoints := CernerClient_getEndpoints env;
                     tp_clientId := JsString clientId |}
       | Some EMR.SMART | Some EMR.NONE => Throw (Error "EMR type not defined.")
       | None => Throw (Error "Invalid object type.")
       end)
  ∧ (missing (REACT_APP_EMR_TYPE env) ∨ missing (REACT_APP_EMR_CLIENT_ID env) →
     getRequiredTokenParameters this env code =
       Throw (InvalidTokenError "Cannot decode the Code for the EMR type. You must provide the client_id and emr_type explicitly"))
  ∧ (∀ sent e,
       (getCodeFromBrowserUrl env = Throw e →
        buildStandaloneFhirClient this env sent = (Throw e, sent))
       ∧ (getCodeFromBrowserUrl env = Return code →
          getRequiredTokenParameters this env code = Throw e →
          buildStandaloneFhirClient this env sent = (Throw e, sent))
       ∧ (∀ code' parameters,
            getCodeFromBrowserUrl env = Return code' →
            getRequiredTokenParameters this env code' = Return parameters →
            let request :=
              token_request env (token (endpoints parameters)) code'
                (tp_clientId parameters) in
            ((getAccessToken env (token (endpoints parameters)) code'
                (tp_clientId parameters) sent).1 = Throw e →
             buildStandaloneFhirClient this env sent =
               (Throw e, (sent ++ [request])%list))
            ∧ (∀ tokenResponse,
                 (getAccessToken env (token (endpoints parameters)) code'
                    (tp_clientId parameters) sent).1 = Return tokenResponse →
                 FHIR_client env (r4 (endpoints parameters)) = Throw e →
                 buildStandaloneFhirClient this env sent =
                   (Throw e, (sent ++ [request])%list)))
       ∧ (∀ sent',
            buildStandaloneFhirClient this env sent = (Throw e, sent') →
            createEMRClient this env LAUNCH.STANDALONE sent = (Throw e, sent'))).
Proof.
  assert (decodeTokenParameters this env code = Throw reason) as Hbody.
  { unfold decodeTokenParameters. by rewrite Hdecode. }
  destruct (getRequiredTokenParameters_catch _ _ _ _ Hbody) as [Hgiven Hmissing].
  split_and!.
  - intros emrType clientId HemrType HclientId.
    rewrite (Hgiven _ _ HemrType HclientId), getEmrEndpoints_string.
    by destruct (instanceOfEmr env (JsString emrType)) as [[]|].
  - intros H. rewrite (Hmissing H).
    by destruct (codeToJwt_throws _ _ _ Hdecode) as [message ->].
  - intros sent e. split_and!.
    + apply buildStandaloneFhirClient_no_code.
    + apply buildStandaloneFhirClient_no_parameters.
    + intros code' parameters Hcode Hparameters request.
      rewrite (buildStandaloneFhirClient_exchange _ _ _ _ _ Hcode Hparameters).
      split; [by intros -> | by intros tokenResponse -> ->].
    + intros sent' Hbuild. unfold createEMRClient, createDefaultFhirClient.
      unfold_async. by rewrite Hbuild.
Qed.

Lemma getRequiredTokenParameters_fallback_witness :
  getRequiredTokenParameters new_ClientFactory
    (sample_env [] (Some "my-app") (Some "cerner") "" JsNull) "not-a-jwt" =
  Return {| endpoints := cerner_endpoints; tp_clientId := JsString "my-app" |}.
Proof.
  apply (proj1 (getRequiredTokenParameters_fallback new_ClientFactory
                  (sample_env [] (Some "my-app") (Some "cerner") "" JsNull) "not-a-jwt"
                  (InvalidTokenError "Invalid token specified: Cannot read properties of undefined (reading 'replace')")
                  eq_refl) "cerner" "my-app");
    by split.
Defined.

(** C3 as it is stated fails: the code is no JWT, both variables are set,
    and no endpoints come back. *)
Lemma fallback_smart_throws :
  codeToJwt smart_build_env "not-a-jwt" =
    Throw (InvalidTokenError "Invalid token specified: Cannot read properties of undefined (reading 'replace')")
  ∧ REACT_APP_EMR_TYPE smart_build_env = Some "smart"
  ∧ REACT_APP_EMR_CLIENT_ID smart_build_env = Some "my-app"
  ∧ getRequiredTokenParameters new_ClientFactory smart_build_env "not-a-jwt" =
      Throw (Error "EMR type not defined.")
  ∧ ¬ ∃ parameters,
        getRequiredTokenParameters new_ClientFactory smart_build_env "not-a-jwt" =
          Return parameters.
Proof.
  split_and!; try reflexivity. by intros [parameters H].
Qed.

(** ** Creating the clients *)

(** C1: the client [createEMRClient] hands back follows the vendor
    detected on the authenticated FHIR client: an [EpicClient] for EPIC, a
    [CernerClient] for CERNER; for SMART and for NONE there is no client,
    the call throws "Unsupported provider for EMR Client creation". *)
Theorem createEMRClient_by_vendor (this : ClientFactory) (env : Env)
    (launchType : LAUNCH.t) (sent sent' : list Request) (defaultFhirClient : SubClient)
    (Hauthenticated :
       createDefaultFhirClient this env launchType sent = (Return defaultFhirClient, sent')) :
  (getEMRType this (inl defaultFhirClient) = EMR.EPIC →
     createEMRClient this env launchType sent = (Return (EpicClient defaultFhirClient), sent'))
  ∧ (getEMRType this (inl defaultFhirClient) = EMR.CERNER →
     createEMRClient this env launchType sent = (Return (CernerClient defaultFhirClient), sent'))
  ∧ (getEMRType this (inl defaultFhirClient) = EMR.SMART
     ∨ getEMRType this (inl defaultFhirClient) = EMR.NONE →
     createEMRClient this env launchType sent =
       (Throw (Error "Unsupported provider for EMR Client creation"), sent')).
Proof.
  unfold createEMRClient. unfold_async. rewrite Hauthenticated.
  split_and!.
  - by intros ->.
  - by intros ->.
  - by intros [-> | ->].
Qed.

Lemma createEMRClient_by_vendor_witness :
  createEMRClient new_ClientFactory
    (sample_env [] None None "https://fhir-ehr.cerner.com/r4/t" JsNull) LAUNCH.EMR [] =
  (Return (CernerClient (sample_client "https://fhir-ehr.cerner.com/r4/t")), []).
Proof.
  apply (proj1 (proj2 (createEMRClient_by_vendor new_ClientFactory
                         (sample_env [] None None "https://fhir-ehr.cerner.com/r4/t" JsNull)
                         LAUNCH.EMR [] [] (sample_client "https://fhir-ehr.cerner.com/r4/t")
                         eq_refl))).
  reflexivity.
Defined.

(** C1 as it is stated fails: the host authenticates, the vendor detected
    is SMART, and no client comes back. *)
Lemma createEMRClient_smart_throws :
  createDefaultFhirClient new_ClientFactory smart_host_env LAUNCH.EMR [] =
    (Return (sample_client "https://launch.smarthealthit.org/v/r4/fhir"), [])
  ∧ getEMRType new_ClientFactory
      (inl (sample_client "https://launch.smarthealthit.org/v/r4/fhir")) = EMR.SMART
  ∧ createEMRClient new_ClientFactory smart_host_env LAUNCH.EMR [] =
      (Throw (Error "Unsupported provider for EMR Client creation"), [])
  ∧ ¬ ∃ client,
        (createEMRClient new_ClientFactory smart_host_env LAUNCH.EMR []).1 = Return client.
Proof.
  split_and!; try reflexivity. by intros [client H].
Qed.


(** ** The requests already sent *)

Section sent.
Variables (this : ClientFactory) (env : Env).

(** Each asynchronous operation adds to the requests sent and looks at
    none of them. *)
Lemma buildStandaloneFhirClient_sent (sent : list Request) :
  buildStandaloneFhirClient this env sent =
    ((buildStandaloneFhirClient this env []).1,
     (sent ++ (buildStandaloneFhirClient this env []).2)%list).
Proof.
  unfold buildStandaloneFhirClient. unfold_async.
  destruct (getCodeFromBrowserUrl env) as [code|]; [|by rewrite app_nil_r].
  destruct (getRequiredTokenParameters this env code) as [parameters|];
    [|by rewrite app_nil_r].
  rewrite (getAccessToken_sent _ _ _ _ sent), (getAccessToken_sent _ _ _ _ []).
  destruct (getAccessToken _ _ _ _ []) as [[tokenResponse|] sent']; [|done].
  simpl. by destruct (FHIR_client env _).
Qed.

Lemma createDefaultFhirClient_sent (launchType : LAUNCH.t) (sent : list Request) :
  createDefaultFhirClient this env launchType sent =
    ((createDefaultFhirClient this env launchType []).1,
     (sent ++ (createDefaultFhirClient this env launchType []).2)%list).
Proof.
  destruct launchType; simpl; unfold resolve; simpl; rewrite ?app_nil_r; try done.
  apply buildStandaloneFhirClient_sent.
Qed.

Lemma createEMRClient_sent (launchType : LAUNCH.t) (sent : list Request) :
  createEMRClient this env launchType sent =
    ((createEMRClient this env launchType []).1,
     (sent ++ (createEMRClient this env launchType []).2)%list).
Proof.
  unfold createEMRClient. unfold_async.
  rewrite (createDefaultFhirClient_sent launchType sent).
  destruct (createDefaultFhirClient this env launchType []) as [[client|] sent'];
    [|done].
  cbn [fst snd]. by destruct (getEMRType this (inl client)).
Qed.

End sent.

(** ** More on tokens and endpoints *)

Lemma instanceOfJWT_throws (object : JsValue) (e : JsError) :
  instanceOfJWT object = Throw e →
  (object = JsNull ∨ object = JsUndefined) ∧ ∃ message, e = TypeError message.
Proof.
  destruct object as [| | | | | |jwt]; try discriminate.
  - intros [= <-]. split; [by right | by eexists].
  - intros [= <-]. split; [by left | by eexists].
Qed.

(** X1: what [instanceOfJWT] takes for a token.  It answers true exactly
    on an object whose [client_id] is anything but [undefined] (a number or
    [null] will do), throws exactly on [null] and [undefined], and answers
    false on everything else. *)
Theorem instanceOfJWT_cases (object : JsValue) :
  (instanceOfJWT object = Return true ↔
     ∃ (jwt : JWT) claim,
       object = JsObject jwt ∧ jwt !! "client_id" = Some claim ∧ claim ≠ JsUndefined)
  ∧ ((∃ e, instanceOfJWT object = Throw e) ↔ object = JsNull ∨ object = JsUndefined)
  ∧ (instanceOfJWT object = Return false ↔
       object ≠ JsNull ∧ object ≠ JsUndefined
       ∧ ∀ (jwt : JWT), object = JsObject jwt →
           jwt !! "client_id" = None ∨ jwt !! "client_id" = Some JsUndefined).
Proof.
  split_and!; split.
  - apply instanceOfJWT_true.
  - intros (jwt & claim & -> & Hclaim & Hdefined).
    rewrite instanceOfJWT_object, Hclaim. by destruct claim.
  - intros [e H]. by apply instanceOfJWT_throws in H as [H _].
  - intros [-> | ->]; by eexists.
  - intros H. split_and!; try (intros ->; discriminate H).
    intros jwt ->. rewrite instanceOfJWT_object in H.
    destruct (jwt !! "client_id") as [[]|]; try discriminate H; auto.
  - intros (Hnull & Hundefined & Hobject).
    destruct object as [| | | | | |jwt]; try done.
    rewrite instanceOfJWT_object.
    by destruct (Hobject jwt eq_refl) as [-> | ->].
Qed.

Section outcomes.
Variables (this : ClientFactory) (env : Env).

Lemma getEmrEndpoints_Return (object : JsValue) (e : EMR_ENDPOINTS) :
  getEmrEndpoints this env object = Return e →
  e = EpicClient_getEndpoints env
  ∨ (e = CernerClient_getEndpoints env
     ∧ instanceOfJWT object = Return false
     ∧ instanceOfEmr env object = Some EMR.CERNER).
Proof.
  destruct (instanceOfJWT object) as [[|]|] eqn:HisJwt.
  - destruct (instanceOfJWT_true _ HisJwt) as (jwt & claim & -> & _ & _).
    rewrite (getEmrEndpoints_jwt _ _ _ HisJwt).
    destruct (jwt !! "epic.eci"); [|done]. intros [= <-]. by left.
  - unfold getEmrEndpoints, getEmrTypeFromObject. rewrite HisJwt. simpl.
    destruct (instanceOfEmr env object) as [[]|]; simpl; try done.
    + intros [= <-]. by right.
    + intros [= <-]. by left.
  - unfold getEmrEndpoints, getEmrTypeFromObject. by rewrite HisJwt.
Qed.

Lemma getEmrEndpoints_Throw (object : JsValue) (e : JsError) :
  getEmrEndpoints this env object = Throw e → endpoint_error e.
Proof.
  unfold endpoint_error.
  destruct (instanceOfJWT object) as [[|]|e'] eqn:HisJwt.
  - destruct (instanceOfJWT_true _ HisJwt) as (jwt & claim & -> & _ & _).
    rewrite (getEmrEndpoints_jwt _ _ _ HisJwt).
    destruct (jwt !! "epic.eci"); [done |]. intros [= <-]. by left.
  - unfold getEmrEndpoints, getEmrTypeFromObject. rewrite HisJwt. simpl.
    destruct (instanceOfEmr env object) as [[]|]; simpl; try done;
      intros [= <-]; auto.
  - unfold getEmrEndpoints, getEmrTypeFromObject. rewrite HisJwt. simpl.
    apply instanceOfJWT_throws in HisJwt as [_ [message ->]].
    intros [= <-]. right. right. by eexists.
Qed.
End outcomes.

(** X2: what [getEmrEndpoints] can give, whatever it is handed.  If it
    returns, the endpoints are Epic's, or they are Cerner's and then the
    argument was no token but the enum member CERNER.  If it throws, the
    error is "EMR type not defined.", "Invalid object type." or the
    [TypeError] of a [null] or [undefined] argument. *)
Theorem getEmrEndpoints_outcomes (this : ClientFactory) (env : Env) (object : JsValue) :
  (∀ e, getEmrEndpoints this env object = Return e →
     e = EpicClient_getEndpoints env
     ∨ (e = CernerClient_getEndpoints env
        ∧ instanceOfJWT object = Return false
        ∧ instanceOfEmr env object = Some EMR.CERNER))
  ∧ (∀ e, getEmrEndpoints this env object = Throw e → endpoint_error e).
Proof.
  split; [apply getEmrEndpoints_Return | apply getEmrEndpoints_Throw].
Qed.

(** ** More on token parameters *)

Lemma given_or_missing (variable : option string) :
  missing variable ∨ ∃ value, given variable value.
Proof.
  destruct variable as [value|]; [|by left; left].
  destruct (String.eqb_spec value "") as [->|Hne]; [by left; right |].
  right. by exists value.
Qed.

Lemma endpoint_error_rethrown (reason : JsError) :
  endpoint_error reason → rethrown reason = reason.
Proof. by intros [-> | [-> | [message ->]]]. Qed.

Section parameters.
Variables (this : ClientFactory) (env : Env) (code : string).

Lemma decodeTokenParameters_Throw (reason : JsError) :
  decodeTokenParameters this env code = Throw reason →
  (codeToJwt env code = Throw reason ∧ ∃ message, reason = InvalidTokenError message)
  ∨ endpoint_error reason.
Proof.
  unfold decodeTokenParameters.
  destruct (codeToJwt env code) as [decodedJwt|e] eqn:Hdecode; simpl.
  - destruct (getEmrEndpoints this env decodedJwt) as [e|e] eqn:Hendpoints; simpl.
    + destruct decodedJwt; simpl; try done;
        intros [= <-]; right; right; right; by eexists.
    + intros [= <-]. right. by apply (getEmrEndpoints_Throw _ _ _ _ Hendpoints).
  - intros [= <-]. left. split; [done |]. by apply (codeToJwt_throws _ _ _ Hdecode).
Qed.

Lemma decodeTokenParameters_Return (parameters : TokenParameters) :
  decodeTokenParameters this env code = Return parameters →
  endpoints parameters = EpicClient_getEndpoints env
  ∨ endpoints parameters = CernerClient_getEndpoints env.
Proof.
  unfold decodeTokenParameters.
  destruct (codeToJwt env code) as [decodedJwt|]; simpl; [|done].
  destruct (getEmrEndpoints this env decodedJwt) as [e|] eqn:Hendpoints; simpl; [|done].
  apply getEmrEndpoints_Return in Hendpoints.
  destruct (get_property decodedJwt "client_id"); simpl; [|done].
  intros [= <-]. simpl. tauto.
Qed.

(** The three ways through [getRequiredTokenParameters]. *)
Lemma getRequiredTokenParameters_cases :
  (∃ parameters,
     decodeTokenParameters this env code = Return parameters
     ∧ getRequiredTokenParameters this env code = Return parameters)
  ∨ (∃ reason,
       decodeTokenParameters this env code = Throw reason
       ∧ (missing (REACT_APP_EMR_TYPE env) ∨ missing (REACT_APP_EMR_CLIENT_ID env))
       ∧ getRequiredTokenParameters this env code = Throw (rethrown reason))
  ∨ (∃ reason emrType clientId,
       decodeTokenParameters this env code = Throw reason
       ∧ given (REACT_APP_EMR_TYPE env) emrType
       ∧ given (REACT_APP_EMR_CLIENT_ID env) clientId
       ∧ getRequiredTokenParameters this env code =
           endpoints ← getEmrEndpoints this env (JsString emrType);
           mret {| endpoints := endpoints; tp_clientId := JsString clientId |}).
Proof.
  destruct (decodeTokenParameters this env code) as [parameters|reason] eqn:Hbody.
  - left. exists parameters. split; [done |].
    unfold getRequiredTokenParameters. by rewrite Hbody.
  - right. destruct (getRequiredTokenParameters_catch _ _ _ _ Hbody) as [Hgiven Hmissing].
    destruct (given_or_missing (REACT_APP_EMR_TYPE env)) as [HemrType|[emrType HemrType]];
      [left; exists reason; auto |].
    destruct (given_or_missing (REACT_APP_EMR_CLIENT_ID env))
      as [HclientId|[clientId HclientId]]; [left; exists reason; auto |].
    right. exists reason, emrType, clientId. auto.
Qed.
End parameters.

(** X3: the token comes before the environment.  When the code decodes to
    a token with a [client_id] and an "epic.eci" claim,
    [getRequiredTokenParameters] returns Epic's endpoints with the token's
    [client_id], whatever REACT_APP_EMR_TYPE and REACT_APP_EMR_CLIENT_ID
    hold. *)
Theorem token_before_environment (this : ClientFactory) (env : Env) (code : string)
    (jwt : JWT) (claim : JsValue) :
  codeToJwt env code = Return (JsObject jwt) →
  jwt !! "client_id" = Some claim →
  claim ≠ JsUndefined →
  is_Some (jwt !! "epic.eci") →
  getRequiredTokenParameters this env code =
    Return {| endpoints := EpicClient_getEndpoints env; tp_clientId := claim |}.
Proof.
  intros Hdecode Hclaim Hdefined [eci Heci].
  assert (instanceOfJWT (JsObject jwt) = Return true) as HisJwt.
  { rewrite instanceOfJWT_object, Hclaim. by destruct claim. }
  unfold getRequiredTokenParameters, decodeTokenParameters.
  rewrite Hdecode. simpl.
  rewrite (getEmrEndpoints_jwt _ _ _ HisJwt), Heci. simpl. by rewrite Hclaim.
Qed.

Lemma token_before_environment_witness :
  getRequiredTokenParameters new_ClientFactory
    (sample_env [] (Some "other-app") (Some "cerner") "" JsNull) "h.EPICPAYLOAD.s" =
  Return {| endpoints := epic_endpoints; tp_clientId := JsString "my-app" |}.
Proof.
  apply (token_before_environment new_ClientFactory
           (sample_env [] (Some "other-app") (Some "cerner") "" JsNull)
           "h.EPICPAYLOAD.s" epic_jwt (JsString "my-app")).
  - reflexivity.
  - reflexivity.
  - discriminate.
  - by eexists.
Defined.

(** X4: a token that decodes but carries no "epic.eci" is treated like a
    code that does not decode: the environment decides.  With both
    variables given, the endpoints are those of REACT_APP_EMR_TYPE and the
    client id is REACT_APP_EMR_CLIENT_ID, not the token's [client_id]; with
    either missing, the error "EMR type not defined." of the token comes out
    as it is. *)
Theorem token_without_eci_falls_back (this : ClientFactory) (env : Env) (code : string)
    (jwt : JWT) :
  codeToJwt env code = Return (JsObject jwt) →
  instanceOfJWT (JsObject jwt) = Return true →
  jwt !! "epic.eci" = None →
  (∀ emrType clientId,
     given (REACT_APP_EMR_TYPE env) emrType →
     given (REACT_APP_EMR_CLIENT_ID env) clientId →
     getRequiredTokenParameters this env code =
       endpoints ← getEmrEndpoints this env (JsString emrType);
       mret {| endpoints := endpoints; tp_clientId := JsString clientId |})
  ∧ (missing (REACT_APP_EMR_TYPE env) ∨ missing (REACT_APP_EMR_CLIENT_ID env) →
     getRequiredTokenParameters this env code = Throw (Error "EMR type not defined.")).
Proof.
  intros Hdecode HisJwt Heci.
  apply (getRequiredTokenParameters_catch this env code (Error "EMR type not defined.")).
  unfold decodeTokenParameters. rewrite Hdecode. simpl.
  by rewrite (getEmrEndpoints_jwt _ _ _ HisJwt), Heci.
Qed.

Lemma token_without_eci_falls_back_witness :
  getRequiredTokenParameters new_ClientFactory
    (sample_env [] (Some "other-app") (Some "cerner") "" JsNull) "h.PLAINPAYLOAD.s" =
  Return {| endpoints := cerner_endpoints; tp_clientId := JsString "other-app" |}.
Proof.
  apply (proj1 (token_without_eci_falls_back new_ClientFactory
                  (sample_env [] (Some "other-app") (Some "cerner") "" JsNull)
                  "h.PLAINPAYLOAD.s" plain_jwt eq_refl eq_refl eq_refl)
           "cerner" "other-app");
    by split.
Defined.

(** X5: the guard [if (!emrType)] inside the fallback never fires.  No
    code and no environment make [getRequiredTokenParameters] throw "EMR
    type cannot be inferred. You must provide the emr_type explicitly". *)
Theorem emr_type_guard_is_dead (this : ClientFactory) (env : Env) (code : string) :
  getRequiredTokenParameters this env code ≠
    Throw (Error "EMR type cannot be inferred. You must provide the emr_type explicitly").
Proof.
  destruct (getRequiredTokenParameters_cases this env code)
    as [(parameters & _ & ->)
       | [(reason & Hbody & _ & ->)
         | (reason & emrType & clientId & _ & _ & _ & ->)]]; [done | |].
  - destruct (decodeTokenParameters_Throw _ _ _ _ Hbody)
      as [[_ [message ->]] | [-> | [-> | [message ->]]]]; done.
  - destruct (getEmrEndpoints this env (JsString emrType)) as [e|e] eqn:Hendpoints;
      [done |].
    destruct (getEmrEndpoints_Throw _ _ _ _ Hendpoints) as [-> | [-> | [message ->]]];
      done.
Qed.

(** X6: where an [InvalidTokenError] can come from.  If
    [getRequiredTokenParameters] throws one, the code could not be decoded,
    REACT_APP_EMR_TYPE or REACT_APP_EMR_CLIENT_ID is missing or empty, and
    the message is the factory's own request for client_id and emr_type: the
    decoder's message never reaches the caller. *)
Theorem invalid_token_error_origin (this : ClientFactory) (env : Env) (code : string)
    (message : string) :
  getRequiredTokenParameters this env code = Throw (InvalidTokenError message) →
  message = "Cannot decode the Code for the EMR type. You must provide the client_id and emr_type explicitly"
  ∧ (missing (REACT_APP_EMR_TYPE env) ∨ missing (REACT_APP_EMR_CLIENT_ID env))
  ∧ ∃ decoderMessage, codeToJwt env code = Throw (InvalidTokenError decoderMessage).
Proof.
  destruct (getRequiredTokenParameters_cases this env code)
    as [(parameters & _ & ->)
       | [(reason & Hbody & Hmissing & ->)
         | (reason & emrType & clientId & _ & _ & _ & ->)]]; [done | |].
  - destruct (decodeTokenParameters_Throw _ _ _ _ Hbody)
      as [[Hdecode [decoderMessage ->]] | Herror].
    + intros [= <-]. split_and!; [done | done | by eexists].
    + rewrite (endpoint_error_rethrown _ Herror).
      by destruct Herror as [-> | [-> | [? ->]]].
  - destruct (getEmrEndpoints this env (JsString emrType)) as [e|e] eqn:Hendpoints;
      [done |].
    by destruct (getEmrEndpoints_Throw _ _ _ _ Hendpoints) as [-> | [-> | [? ->]]].
Qed.

Lemma invalid_token_error_origin_witness :
  getRequiredTokenParameters new_ClientFactory
    (sample_env [] None (Some "") "" JsNull) "not-a-jwt" =
    Throw (InvalidTokenError "Cannot decode the Code for the EMR type. You must provide the client_id and emr_type explicitly")
  ∧ (missing (REACT_APP_EMR_TYPE (sample_env [] None (Some "") "" JsNull))
     ∨ missing (REACT_APP_EMR_CLIENT_ID (sample_env [] None (Some "") "" JsNull))).
Proof.
  split; [reflexivity |].
  apply (invalid_token_error_origin new_ClientFactory
           (sample_env [] None (Some "") "" JsNull) "not-a-jwt"
           "Cannot decode the Code for the EMR type. You must provide the client_id and emr_type explicitly").
  reflexivity.
Defined.

(** X7: what [getRequiredTokenParameters] can return.  The endpoints are
    Epic's or Cerner's, never any other; and the parameters are those read
    off the decoded code, or else the client id is the non-empty
    REACT_APP_EMR_CLIENT_ID. *)
Theorem getRequiredTokenParameters_returns (this : ClientFactory) (env : Env)
    (code : string) (parameters : TokenParameters) :
  getRequiredTokenParameters this env code = Return parameters →
  (endpoints parameters = EpicClient_getEndpoints env
   ∨ endpoints parameters = CernerClient_getEndpoints env)
  ∧ (decodeTokenParameters this env code = Return parameters
     ∨ ∃ clientId,
         given (REACT_APP_EMR_CLIENT_ID env) clientId
         ∧ tp_clientId parameters = JsString clientId).
Proof.
  destruct (getRequiredTokenParameters_cases this env code)
    as [(parameters' & Hbody & ->)
       | [(reason & _ & _ & ->)
         | (reason & emrType & clientId & _ & _ & HclientId & ->)]]; [| done |].
  - intros [= <-]. split; [|by left].
    by apply (decodeTokenParameters_Return this env code).
  - destruct (getEmrEndpoints this env (JsString emrType)) as [e|] eqn:Hendpoints;
      [|done].
    intros [= <-]. simpl. split.
    + apply getEmrEndpoints_Return in Hendpoints. tauto.
    + right. by exists clientId.
Qed.

Lemma getRequiredTokenParameters_returns_witness :
  getRequiredTokenParameters new_ClientFactory
    (sample_env [] None None "" JsNull) "h.EPICPAYLOAD.s" =
    Return {| endpoints := epic_endpoints; tp_clientId := JsString "my-app" |}
  ∧ (endpoints {| endpoints := epic_endpoints; tp_clientId := JsString "my-app" |} =
       epic_endpoints
     ∨ endpoints {| endpoints := epic_endpoints; tp_clientId := JsString "my-app" |} =
       cerner_endpoints).
Proof.
  split; [reflexivity |].
  apply (getRequiredTokenParameters_returns new_ClientFactory
           (sample_env [] None None "" JsNull) "h.EPICPAYLOAD.s"
           {| endpoints := epic_endpoints; tp_clientId := JsString "my-app" |}).
  reflexivity.
Defined.

(** ** More on the standalone flow *)

(** A token response that comes back from [getAccessToken] is an object
    with a truthy [access_token]. *)
Lemma getAccessToken_Return (env : Env) (tokenEndpoint code : string)
    (clientId : JsValue) (sent : list Request) (tokenResponse : JsValue) :
  (getAccessToken env tokenEndpoint code clientId sent).1 = Return tokenResponse →
  ∃ response (m : gmap string JsValue) access_token,
    fetch env (token_request env tokenEndpoint code clientId) = Return response
    ∧ json response = Return tokenResponse
    ∧ tokenResponse = JsObject m
    ∧ m !! "access_token" = Some access_token
    ∧ truthy access_token = true.
Proof.
  unfold getAccessToken. unfold_async.
  destruct (fetch env _) as [response|]; [|done].
  destruct (json response) as [answer|] eqn:Hjson; [|done]. simpl.
  destruct answer as [| | | | | |m]; try done. simpl.
  destruct (m !! "access_token") as [access_token|] eqn:Haccess; [|done]. simpl.
  destruct (truthy access_token) eqn:Htruthy; [|done]. simpl.
  intros [= <-]. by exists response, m, access_token.
Qed.

(** X13: what [getAccessToken] makes of the answer.  When the token
    endpoint answers with JSON, the answer is returned only if it is an
    object whose [access_token] is truthy; [null] makes the call throw a
    [TypeError]; an object without a truthy [access_token], and any string,
    number, boolean or array, make it throw "Could not find any access token
    from the oauth endpoint's response". *)
Theorem getAccessToken_answers (env : Env) (tokenEndpoint code : string)
    (clientId : JsValue) (sent : list Request) (response : Response) (answer : JsValue) :
  fetch env (token_request env tokenEndpoint code clientId) = Return response →
  json response = Return answer →
  let result := (getAccessToken env tokenEndpoint code clientId sent).1 in
  match answer with
  | JsNull | JsUndefined => ∃ message, result = Throw (TypeError message)
  | JsObject m =>
      match m !! "access_token" with
      | Some access_token =>
          if truthy access_token then result = Return answer
          else result = Throw (Error "Could not find any access token from the oauth endpoint's response")
      | None =>
          result = Throw (Error "Could not find any access token from the oauth endpoint's response")
      end
  | JsBoolean _ | JsNumber _ | JsString _ | JsArray _ =>
      result = Throw (Error "Could not find any access token from the oauth endpoint's response")
  end.
Proof.
  intros Hfetch Hjson result. subst result.
  unfold getAccessToken. unfold_async. rewrite Hfetch, Hjson. simpl.
  destruct answer as [| | | | | |m]; simpl; try done; try by eexists.
  destruct (m !! "access_token") as [access_token|]; simpl; [|done].
  by destruct (truthy access_token).
Qed.

Lemma getAccessToken_answers_witness :
  (getAccessToken (sample_env [] None None "" (JsArray [JsString "secret"]))
     "https://token" "code" (JsString "my-app") []).1 =
  Throw (Error "Could not find any access token from the oauth endpoint's response").
Proof.
  apply (getAccessToken_answers (sample_env [] None None "" (JsArray [JsString "secret"]))
           "https://token" "code" (JsString "my-app") []
           {| json := Return (JsArray [JsString "secret"]) |}
           (JsArray [JsString "secret"])
           eq_refl eq_refl).
Defined.

(** X8: an access token or no client.  A client that
    [buildStandaloneFhirClient] returns was built after exactly one token
    request, on what [FHIR.client] gave for the R4 endpoint; its
    [state.clientId] is the client id of the token parameters, and its
    [state.tokenResponse] is what the token endpoint answered to that
    request, an object with a truthy [access_token]. *)
Theorem standalone_client_has_access_token (this : ClientFactory) (env : Env)
    (sent sent' : list Request) (client : SubClient) :
  buildStandaloneFhirClient this env sent = (Return client, sent') →
  ∃ code parameters response defaultFhirClient (answer : gmap string JsValue)
    access_token,
    let request :=
      token_request env (token (endpoints parameters)) code (tp_clientId parameters) in
    getCodeFromBrowserUrl env = Return code
    ∧ getRequiredTokenParameters this env code = Return parameters
    ∧ sent' = (sent ++ [request])%list
    ∧ fetch env request = Return response
    ∧ json response = Return (JsObject answer)
    ∧ FHIR_client env (r4 (endpoints parameters)) = Return defaultFhirClient
    ∧ serverUrl (state client) = serverUrl (state defaultFhirClient)
    ∧ clientId (state client) = tp_clientId parameters
    ∧ tokenResponse (state client) = Some answer
    ∧ answer !! "access_token" = Some access_token
    ∧ truthy access_token = true.
Proof.
  destruct (buildStandaloneFhirClient_cases this env sent)
    as [(e & _ & ->) | [(code & e & _ & _ & ->) | (code & parameters & Hcode & Hparameters)]];
    [done | done |].
  rewrite (buildStandaloneFhirClient_exchange _ _ _ _ _ Hcode Hparameters).
  destruct (getAccessToken _ _ _ _ sent).1 as [tokenResponse|] eqn:Hexchange; [|done].
  apply getAccessToken_Return in Hexchange
    as (response & answer & access_token & Hfetch & Hjson & -> & Haccess & Htruthy).
  destruct (FHIR_client env _) as [defaultFhirClient|] eqn:Hclient; [|done].
  intros [= <- <-].
  by exists code, parameters, response, defaultFhirClient, answer, access_token.
Qed.

Lemma standalone_client_has_access_token_witness :
  ∃ code parameters response defaultFhirClient (answer : gmap string JsValue)
    access_token,
    getCodeFromBrowserUrl
      (sample_env [("code", "h.EPICPAYLOAD.s")] None None "" sample_token_response)
      = Return code
    ∧ getRequiredTokenParameters new_ClientFactory
        (sample_env [("code", "h.EPICPAYLOAD.s")] None None "" sample_token_response) code
      = Return parameters
    ∧ [token_request
         (sample_env [("code", "h.EPICPAYLOAD.s")] None None "" sample_token_response)
         (token epic_endpoints) "h.EPICPAYLOAD.s" (JsString "my-app")]
      = ([] ++ [token_request
                  (sample_env [("code", "h.EPICPAYLOAD.s")] None None ""
                     sample_token_response)
                  (token (endpoints parameters)) code (tp_clientId parameters)])%list
    ∧ fetch
        (sample_env [("code", "h.EPICPAYLOAD.s")] None None "" sample_token_response)
        (token_request
           (sample_env [("code", "h.EPICPAYLOAD.s")] None None "" sample_token_response)
           (token (endpoints parameters)) code (tp_clientId parameters))
      = Return response
    ∧ json response = Return (JsObject answer)
    ∧ FHIR_client
        (sample_env [("code", "h.EPICPAYLOAD.s")] None None "" sample_token_response)
        (r4 (endpoints parameters)) = Return defaultFhirClient
    ∧ r4 epic_endpoints = serverUrl (state defaultFhirClient)
    ∧ JsString "my-app" = tp_clientId parameters
    ∧ Some (spread sample_token_response) = Some answer
    ∧ answer !! "access_token" = Some access_token
    ∧ truthy access_token = true.
Proof.
  apply (standalone_client_has_access_token new_ClientFactory
           (sample_env [("code", "h.EPICPAYLOAD.s")] None None "" sample_token_response)
           []
           [token_request
              (sample_env [("code", "h.EPICPAYLOAD.s")] None None "" sample_token_response)
              (token epic_endpoints) "h.EPICPAYLOAD.s" (JsString "my-app")]
           {| state := {| serverUrl := r4 epic_endpoints;
                          clientId := JsString "my-app";
                          tokenResponse := Some (spread sample_token_response) |} |}).
  vm_compute. reflexivity.
Defined.

(** X9: nothing is retried or recovered in the standalone flow outside
    the [try] of [getRequiredTokenParameters].  A failure to find the code
    or to derive the parameters comes out as it is, with nothing sent; a
    failure of the exchange, or of [FHIR.client] after it, comes out as it
    is, with the one token request sent. *)
Theorem standalone_failures_surface (this : ClientFactory) (env : Env)
    (sent : list Request) (e : JsError) :
  (getCodeFromBrowserUrl env = Throw e →
   buildStandaloneFhirClient this env sent = (Throw e, sent))
  ∧ (∀ code,
       getCodeFromBrowserUrl env = Return code →
       getRequiredTokenParameters this env code = Throw e →
       buildStandaloneFhirClient this env sent = (Throw e, sent))
  ∧ (∀ code parameters,
       getCodeFromBrowserUrl env = Return code →
       getRequiredTokenParameters this env code = Return parameters →
       let request :=
         token_request env (token (endpoints parameters)) code (tp_clientId parameters) in
       ((getAccessToken env (token (endpoints parameters)) code
           (tp_clientId parameters) sent).1 = Throw e →
        buildStandaloneFhirClient this env sent = (Throw e, (sent ++ [request])%list))
       ∧ (∀ tokenResponse,
            (getAccessToken env (token (endpoints parameters)) code
               (tp_clientId parameters) sent).1 = Return tokenResponse →
            FHIR_client env (r4 (endpoints parameters)) = Throw e →
            buildStandaloneFhirClient this env sent =
              (Throw e, (sent ++ [request])%list))).
Proof.
  split_and!.
  - apply buildStandaloneFhirClient_no_code.
  - intros code. apply (buildStandaloneFhirClient_no_parameters this env sent code e).
  - intros code parameters Hcode Hparameters request.
    rewrite (buildStandaloneFhirClient_exchange _ _ _ _ _ Hcode Hparameters).
    split.
    + by intros ->.
    + by intros tokenResponse -> ->.
Qed.

(** ** More on the clients *)

(** The vendor of a client, by the substrings of its server URL. *)
Lemma getEMRType_client_vendor (this : ClientFactory) (client : SubClient) :
  let url := serverUrl (state client) in
  match getEMRType this (inl client) with
  | EMR.CERNER => contains url "cerner"
  | EMR.SMART => ¬ contains url "cerner" ∧ contains url "smarthealthit"
  | EMR.EPIC =>
      ¬ contains url "cerner" ∧ ¬ contains url "smarthealthit" ∧ contains url "epic"
  | EMR.NONE =>
      ¬ contains url "cerner" ∧ ¬ contains url "smarthealthit" ∧ ¬ contains url "epic"
  end.
Proof.
  intros url. rewrite getEMRType_client. fold url.
  repeat case_includes; tauto.
Qed.

Section clients.
Variables (this : ClientFactory) (env : Env) (launchType : LAUNCH.t).
Variable sent : list Request.

(** [createEMRClient] sends what [createDefaultFhirClient] sends. *)
Lemma createEMRClient_requests :
  (createEMRClient this env launchType sent).2 =
  (createDefaultFhirClient this env launchType sent).2.
Proof.
  unfold createEMRClient. unfold_async.
  destruct (createDefaultFhirClient this env launchType sent) as [[client|] sent'];
    [|done].
  cbn [fst snd]. by destruct (getEMRType this (inl client)).
Qed.

Lemma createEMRClient_unfold :
  createEMRClient this env launchType sent =
    match createDefaultFhirClient this env launchType sent with
    | (Return client, sent') =>
        (match getEMRType this (inl client) with
         | EMR.EPIC => Return (EpicClient client)
         | EMR.CERNER => Return (CernerClient client)
         | EMR.SMART | EMR.NONE =>
             Throw (Error "Unsupported provider for EMR Client creation")
         end, sent')
    | (Throw e, sent') => (Throw e, sent')
    end.
Proof.
  unfold createEMRClient. unfold_async.
  destruct (createDefaultFhirClient this env launchType sent) as [[client|] sent'];
    [|done].
  by destruct (getEMRType this (inl client)).
Qed.

Lemma createDefaultFhirClient_requests :
  (createDefaultFhirClient this env launchType sent).2 = sent
  ∨ ∃ code parameters,
      launchType = LAUNCH.STANDALONE
      ∧ getCodeFromBrowserUrl env = Return code
      ∧ getRequiredTokenParameters this env code = Return parameters
      ∧ (createDefaultFhirClient this env launchType sent).2 =
          (sent ++ [token_request env (token (endpoints parameters)) code
                      (tp_clientId parameters)])%list.
Proof.
  destruct launchType; [by left | | by left]. simpl.
  destruct (buildStandaloneFhirClient_cases this env sent)
    as [(e & _ & ->) | [(code & e & _ & _ & ->) | (code & parameters & Hcode & Hparameters)]];
    [by left | by left |].
  right. exists code, parameters. split_and!; try done.
  by rewrite (buildStandaloneFhirClient_exchange _ _ _ _ _ Hcode Hparameters).
Qed.
End clients.

(** X10: where the authorization code can go in a standalone launch.
    Whatever the environment, [createEMRClient(LAUNCH.STANDALONE)] makes no
    [fetch], or exactly one; that one is a POST that carries the code of the
    browser's URL, and it goes to the token endpoint of Epic or of Cerner,
    to no other address. *)
Theorem code_goes_to_epic_or_cerner (this : ClientFactory) (env : Env)
    (sent : list Request) :
  (createEMRClient this env LAUNCH.STANDALONE sent).2 = sent
  ∨ ∃ code request,
      (createEMRClient this env LAUNCH.STANDALONE sent).2 = (sent ++ [request])%list
      ∧ getCodeFromBrowserUrl env = Return code
      ∧ method request = "POST"
      ∧ (url request = token (EpicClient_getEndpoints env)
         ∨ url request = token (CernerClient_getEndpoints env))
      ∧ ("code", JsString code) ∈ body request.
Proof.
  rewrite createEMRClient_requests.
  destruct (createDefaultFhirClient_requests this env LAUNCH.STANDALONE sent)
    as [Hnone | (code & parameters & _ & Hcode & Hparameters & ->)]; [by left |].
  right. exists code. eexists. split_and!; try done.
  - destruct (getRequiredTokenParameters_cases this env code)
      as [(parameters' & Hbody & Heq)
         | [(reason & _ & _ & Heq)
           | (reason & emrType & clientId & _ & _ & _ & Heq)]];
      rewrite Heq in Hparameters; [| done |].
    + injection Hparameters as ->. simpl.
      by destruct (decodeTokenParameters_Return _ _ _ _ Hbody) as [-> | ->]; auto.
    + destruct (getEmrEndpoints this env (JsString emrType)) as [e|] eqn:Hendpoints;
        [|done].
      injection Hparameters as <-. simpl.
      apply getEmrEndpoints_Return in Hendpoints as [-> | [-> _]]; auto.
  - simpl. apply list_elem_of_further, list_elem_of_here.
Qed.

(** X11: when [createEMRClient] succeeds and when it fails.  A client
    that comes back wraps the FHIR client [createDefaultFhirClient] gave: a
    [CernerClient] when its server URL contains "cerner", an [EpicClient]
    when it contains "epic" and neither "cerner" nor "smarthealthit".  An
    error that comes back is the one [createDefaultFhirClient] threw, or it
    is "Unsupported provider for EMR Client creation", and then the server
    URL contains "smarthealthit" or lacks "epic", and lacks "cerner". *)
Theorem createEMRClient_outcomes (this : ClientFactory) (env : Env)
    (launchType : LAUNCH.t) (sent sent' : list Request) :
  (∀ client,
     createEMRClient this env launchType sent = (Return client, sent') →
     ∃ defaultFhirClient,
       createDefaultFhirClient this env launchType sent = (Return defaultFhirClient, sent')
       ∧ let url := serverUrl (state defaultFhirClient) in
         (client = CernerClient defaultFhirClient ∧ contains url "cerner")
         ∨ (client = EpicClient defaultFhirClient
            ∧ contains url "epic"
            ∧ ¬ contains url "cerner" ∧ ¬ contains url "smarthealthit"))
  ∧ (∀ e,
       createEMRClient this env launchType sent = (Throw e, sent') →
       createDefaultFhirClient this env launchType sent = (Throw e, sent')
       ∨ (e = Error "Unsupported provider for EMR Client creation"
          ∧ ∃ defaultFhirClient,
              createDefaultFhirClient this env launchType sent =
                (Return defaultFhirClient, sent')
              ∧ let url := serverUrl (state defaultFhirClient) in
                ¬ contains url "cerner"
                ∧ (contains url "smarthealthit" ∨ ¬ contains url "epic"))).
Proof.
  rewrite createEMRClient_unfold.
  destruct (createDefaultFhirClient this env launchType sent)
    as [[defaultFhirClient|e'] sent''].
  - pose proof (getEMRType_client_vendor this defaultFhirClient) as Hvendor.
    cbv zeta in Hvendor.
    destruct (getEMRType this (inl defaultFhirClient)); split; try done.
    + intros client [= <- <-]. exists defaultFhirClient. split; [done |].
      cbv zeta. by left.
    + intros client [= <- <-]. exists defaultFhirClient. split; [done |].
      cbv zeta. right. tauto.
    + intros e [= <- <-]. right. split; [done |].
      exists defaultFhirClient. split; [done |]. cbv zeta. tauto.
    + intros e [= <- <-]. right. split; [done |].
      exists defaultFhirClient. split; [done |]. cbv zeta. tauto.
  - split; [done |]. intros e [= <- <-]. by left.
Qed.

(** ** Trying the functions *)

Example includes_cerner :
  includes "https://fhir-ehr.cerner.com/r4/t" "cerner" = true.
Proof. reflexivity. Qed.

Example split_token : split "." "aaa.bbb.ccc" = ["aaa"; "bbb"; "ccc"].
Proof. reflexivity. Qed.

Example split_empty : split "." "" = [""].
Proof. reflexivity. Qed.

Example standalone_epic :
  createEMRClient new_ClientFactory
    (sample_env [("code", "h.EPICPAYLOAD.s")] None None "" sample_token_response)
    LAUNCH.STANDALONE [] =
  (Return (EpicClient
     {| state := {| serverUrl := r4 epic_endpoints;
                    clientId := JsString "my-app";
                    tokenResponse := Some (spread sample_token_response) |} |}),
   [token_request (sample_env [] None None "" JsNull) (token epic_endpoints)
      "h.EPICPAYLOAD.s" (JsString "my-app")]).
Proof. vm_compute. reflexivity. Qed.

Example cerner_wins :
  getEMRType new_ClientFactory
    (inl (sample_client "https://epic.smarthealthit.cerner.example/r4")) = EMR.CERNER.
Proof. reflexivity. Qed.

Example smart_wins_over_epic :
  getEMRType new_ClientFactory
    (inl (sample_client "https://epic.smarthealthit.org/r4")) = EMR.SMART.
Proof. reflexivity. Qed.

Example no_code_no_request :
  createEMRClient new_ClientFactory
    (sample_env [("state", "xyz")] (Some "my-app") (Some "epic") "" sample_token_response)
    LAUNCH.STANDALONE [] =
  (Throw (Error "Could not find any JWT token."), []).
Proof. reflexivity. Qed.

Example first_code_wins :
  getCodeFromBrowserUrl
    (sample_env [("state", "xyz"); ("code", "a.b.c"); ("code", "d.e.f")]
       None None "" JsNull) = Return "a.b.c".
Proof. reflexivity. Qed.

Example empty_access_token :
  (getAccessToken (sample_env [] None None "" (JsObject {[ "access_token" := JsString "" ]}))
     "https://token" "code" (JsString "my-app") []).1 =
  Throw (Error "Could not find any access token from the oauth endpoint's response").
Proof. reflexivity. Qed.
